(** * caer.opencv: convenience wrappers over the vision primitives

    A shallow embedding of [caer/opencv.py].  Every function of the module
    is glue around primitives of the vision library ([cv.Canny],
    [cv.warpAffine], [cv.cvtColor], ...), of [caer.utilities] ([median],
    [asarray]) and of [urllib] ([urlopen]).  The primitives are kept as
    uninterpreted calls: a function of the module is embedded as a small
    program tree whose nodes are the primitive calls it makes, and a
    program is run against an arbitrary [handler] that answers each call
    with a value or with an exception. *)

From Stdlib Require Import ZArith List String Ascii Bool Lia.
From Stdlib Require Import DecimalString.
From Stdlib Require Import Uint63 PrimFloat FloatOps SpecFloat.
Import ListNotations.

Set Warnings "-inexact-float,-register-all".

Local Open Scope string_scope.

(** ** Python values *)

(** An n-dimensional array: its shape tuple and its flat sample buffer. *)
Record ndarray : Type := mk_ndarray {
  shape : list nat;
  data : list Z
}.

(** The dynamically typed values handed to the functions of the module.
    [PyBool] is kept apart from [PyInt] because [isinstance] tells them
    apart in one direction only: a [bool] is an [int]. *)
Inductive pyval : Type :=
| PyNone
| PyBool (b : bool)
| PyInt (z : Z)
| PyFloat (f : float)
| PyStr (s : string)
| PyTuple (items : list pyval)
| PyArr (a : ndarray).

(** Numbers as the arithmetic of [edges] and the affine matrices see them:
    a Python [int] or a Python [float]. *)
Inductive num : Type :=
| NInt (z : Z)
| NFloat (f : float).

Inductive dtype : Type := float32 | float64.

(** A 2x3 affine matrix, as built by [np.float32] or returned by
    [cv.getRotationMatrix2D]: its element type and its rows. *)
Record matrix : Type := mk_matrix {
  mdtype : dtype;
  rows : list (list num)
}.

(** ** Exceptions *)

Inductive exn : Type :=
| ValueError (msg : string)
| AttributeError (msg : string)
| IndexError (msg : string)
| OverflowError (msg : string)
| UnboundLocalError (var : string)
| LibError (origin : string) (msg : string).

(** ** Constants of [caer.globals] *)

(** [opencv.py] imports its conversion codes from [.globals], which is not
    part of the sources at hand; they are taken as parameters. *)
Record globals : Type := mk_globals {
  BGR2GRAY : Z; BGR2RGB : Z; BGR2HSV : Z; BGR2LAB : Z;
  RGB2BGR : Z; RGB2GRAY : Z; RGB2HSV : Z; RGB2LAB : Z;
  IMREAD_COLOR : Z
}.

(** ** Primitive calls *)

(** The handle returned by [urlopen]. *)
Inductive response : Type := Response (handle : N).

(** One constructor per primitive the module calls, indexed by the type of
    what the primitive returns.  [median] and [asarray] come from
    [caer.utilities], which is not part of the sources at hand either. *)
Inductive prim : Type -> Type :=
| cv_warpAffine (src : pyval) (M : matrix) (dsize : nat * nat) : prim ndarray
| cv_getRotationMatrix2D (centre : nat * nat) (angle : pyval) (scale : float)
  : prim matrix
| cv_Canny (img : pyval) (threshold1 threshold2 : pyval) : prim ndarray
| cv_mean (image : pyval) (mask : pyval) : prim (list float)
| cv_cvtColor (img : pyval) (code : Z) : prim ndarray
| cv_imdecode (buf : ndarray) (flags : Z) : prim pyval
| median (img : pyval) : prim float
| asarray (bytes : list Z) (dt : string) : prim ndarray
| urlopen (url : pyval) : prim response
| response_read (r : response) : prim (list Z).

(** ** Programs *)

(** A program of result type [A]: it returns, raises, or calls a primitive
    and goes on with its answer.  An exception raised by a primitive under
    [Call] leaves the program as it is; under [TryCall] (a call inside
    [try: ... except: ...]) it is handed to the [except] clause. *)
Inductive py (A : Type) : Type :=
| Ret (a : A)
| Raise (e : exn)
| Call (X : Type) (p : prim X) (k : X -> py A)
| TryCall (X : Type) (p : prim X) (except : exn -> py A) (k : X -> py A).

Arguments Ret {A} a.
Arguments Raise {A} e.
Arguments Call {A X} p k.
Arguments TryCall {A X} p except k.

Fixpoint bind {A B : Type} (m : py A) (f : A -> py B) : py B :=
  match m with
  | Ret a => f a
  | Raise e => Raise e
  | Call p k => Call p (fun x => bind (k x) f)
  | TryCall p h k => TryCall p (fun e => bind (h e) f) (fun x => bind (k x) f)
  end.

Definition call {X : Type} (p : prim X) : py X := Call p Ret.

Declare Scope py_scope.
Delimit Scope py_scope with py.
Notation "x <- c ;; k" := (bind c (fun x => k))
  (at level 61, c at next level, right associativity) : py_scope.
Local Open Scope py_scope.

(** What the outside world answers to a primitive call. *)
Inductive result (A : Type) : Type :=
| Ok (a : A)
| Err (e : exn).

Arguments Ok {A} a.
Arguments Err {A} e.

Definition handler : Type := forall X : Type, prim X -> result X.

Fixpoint run {A : Type} (h : handler) (m : py A) : result A :=
  match m with
  | Ret a => Ok a
  | Raise e => Err e
  | Call p k =>
      match h _ p with
      | Ok x => run h (k x)
      | Err e => Err e
      end
  | TryCall p ex k =>
      match h _ p with
      | Ok x => run h (k x)
      | Err e => run h (ex e)
      end
  end.

(** ** Builtins *)

Definition is_None (v : pyval) : bool :=
  match v with PyNone => true | _ => false end.

(** [isinstance(v, bool)] *)
Definition isinstance_bool (v : pyval) : bool :=
  match v with PyBool _ => true | _ => false end.

(** [isinstance(v, int)]: [bool] is a subclass of [int]. *)
Definition isinstance_int (v : pyval) : bool :=
  match v with PyBool _ | PyInt _ => true | _ => false end.

(** Truth value of a [bool]. *)
Definition truth (v : pyval) : bool :=
  match v with PyBool b => b | _ => false end.

Definition str_of_nat (n : nat) : string :=
  NilEmpty.string_of_uint (Nat.to_uint n).

(** The sign-and-magnitude integer [(-1)^s * m]. *)
Definition signed (s : bool) (m : positive) : Z :=
  if s then Z.neg m else Z.pos m.

(** [z < f] for a Python [int] and a [float]: Python compares the two
    exactly, without rounding the integer. *)
Definition int_lt_float (z : Z) (f : float) : bool :=
  match Prim2SF f with
  | S754_zero _ => (z <? 0)%Z
  | S754_infinity s => negb s
  | S754_nan => false
  | S754_finite s m e =>
      if (0 <=? e)%Z then (z <? signed s m * 2 ^ e)%Z
      else (z * 2 ^ (- e) <? signed s m)%Z
  end.

(** [f < z] for a [float] and a Python [int]. *)
Definition float_lt_int (f : float) (z : Z) : bool :=
  match Prim2SF f with
  | S754_zero _ => (0 <? z)%Z
  | S754_infinity s => s
  | S754_nan => false
  | S754_finite s m e =>
      if (0 <=? e)%Z then (signed s m * 2 ^ e <? z)%Z
      else (signed s m <? z * 2 ^ (- e))%Z
  end.

(** [a < b] on numbers. *)
Definition num_lt (a b : num) : bool :=
  match a, b with
  | NInt x, NInt y => (x <? y)%Z
  | NInt x, NFloat g => int_lt_float x g
  | NFloat f, NInt y => float_lt_int f y
  | NFloat f, NFloat g => PrimFloat.ltb f g
  end.

(** [max(a, b)]: the first argument is kept unless the second is strictly
    greater. *)
Definition py_max (a b : num) : num := if num_lt a b then b else a.

(** [min(a, b)]: the first argument is kept unless the second is strictly
    smaller. *)
Definition py_min (a b : num) : num := if num_lt b a then b else a.

(** A computation without primitive calls, taken into a program. *)
Definition lift {A : Type} (r : result A) : py A :=
  match r with
  | Ok a => Ret a
  | Err e => Raise e
  end.

(** [int(x)]: the identity on an [int], truncation towards zero on a finite
    [float]; infinities and NaN are refused. *)
Definition py_int (x : num) : result Z :=
  match x with
  | NInt z => Ok z
  | NFloat f =>
      match Prim2SF f with
      | S754_zero _ => Ok 0%Z
      | S754_infinity _ =>
          Err (OverflowError "cannot convert float infinity to integer")
      | S754_nan => Err (ValueError "cannot convert float NaN to integer")
      | S754_finite s m e =>
          Ok (if (0 <=? e)%Z then signed s m * 2 ^ e
              else Z.quot (signed s m) (2 ^ (- e)))%Z
      end
  end.

(** ** [edges] *)

Definition edges (img threshold1 threshold2 use_median : pyval)
    (sigma : option float) : py ndarray :=
  if negb (isinstance_bool use_median) then
    Raise (ValueError "use_median must be a boolean")
  else if negb (isinstance_int threshold1) || negb (isinstance_int threshold2)
  then Raise (ValueError "Threshold values must be integers")
  else if is_None img then Raise (ValueError "Image is of NoneType()")
  else if negb (truth use_median)
          && (is_None threshold1 || is_None threshold2)
  then Raise (ValueError "Specify valid threshold values")
  else if truth use_median then
    let sigma := match sigma with None => 0.3%float | Some s => s end in
    med <- call (median img) ;;
    low <- lift (py_int (py_max (NInt 0) (NFloat ((1.0 - sigma) * med)))) ;;
    up <- lift (py_int (py_min (NInt 255) (NFloat ((1.0 + sigma) * med)))) ;;
    call (cv_Canny img (PyInt low) (PyInt up))
  else call (cv_Canny img threshold1 threshold2).

(** The thresholds of automatic mode as the specification words them:
    sigma defaults to 0.3; the low threshold is the larger of 0 and
    (1 - sigma) x median, the high threshold the smaller of 255 and
    (1 + sigma) x median, both truncated to integers. *)
Definition sigma_or_default (sigma : option float) : float :=
  match sigma with
  | None => 0.3%float
  | Some s => s
  end.

Definition auto_low (sigma : option float) (med : float) : result Z :=
  let x := ((1.0 - sigma_or_default sigma) * med)%float in
  if int_lt_float 0 x then py_int (NFloat x) else Ok 0%Z.

Definition auto_high (sigma : option float) (med : float) : result Z :=
  let y := ((1.0 + sigma_or_default sigma) * med)%float in
  if float_lt_int y 255 then py_int (NFloat y) else Ok 255%Z.

(** Automatic mode as the specification words it: take the median of the
    image, derive the two thresholds, call the edge detector with them. *)
Definition auto_edges (img : pyval) (sigma : option float) : py ndarray :=
  med <- call (median img) ;;
  low <- lift (auto_low sigma med) ;;
  high <- lift (auto_high sigma med) ;;
  call (cv_Canny img (PyInt low) (PyInt high)).

(** ** Shapes *)

Definition type_name (v : pyval) : string :=
  match v with
  | PyNone => "NoneType"
  | PyBool _ => "bool"
  | PyInt _ => "int"
  | PyFloat _ => "float"
  | PyStr _ => "str"
  | PyTuple _ => "tuple"
  | PyArr _ => "numpy.ndarray"
  end.

(** [v.shape]: only arrays have one. *)
Definition get_shape (v : pyval) : py (list nat) :=
  match v with
  | PyArr a => Ret (shape a)
  | _ =>
      Raise (AttributeError
               ("'" ++ type_name v ++ "' object has no attribute 'shape'"))
  end.

(** [shp[i]] on a shape tuple. *)
Definition shape_index (shp : list nat) (i : nat) : py nat :=
  match nth_error shp i with
  | Some d => Ret d
  | None => Raise (IndexError "tuple index out of range")
  end.

Definition ndim (a : ndarray) : nat := List.length (shape a).

(** An image is a 2-D (grayscale) or 3-D (multi-channel) array. *)
Definition is_image (a : ndarray) : bool :=
  (ndim a =? 2)%nat || (ndim a =? 3)%nat.

(** ** Geometric transforms *)

(** Whether [np.float32] can take the number.  A Python [int] is turned
    into a float on the way, and that is refused from [2^1024 - 2^970] on,
    the first integer that rounds beyond the largest float; a [float] is
    taken as it is. *)
Definition float_able (n : num) : bool :=
  match n with
  | NInt z => (Z.abs z <? 2 ^ 1024 - 2 ^ 970)%Z
  | NFloat _ => true
  end.

(** [np.float32(rows)] on rows of numbers: the rows as a [float32] matrix,
    or the [OverflowError] of an integer that no float can hold. *)
Definition np_float32 (rs : list (list num)) : result matrix :=
  if forallb (forallb float_able) rs then Ok (mk_matrix float32 rs)
  else Err (OverflowError "int too large to convert to float").

(** The matrix is built first, before the image is looked at. *)
Definition translate (image : pyval) (x y : num) : py ndarray :=
  transMat <- lift (np_float32 [[NInt 1; NInt 0; x]; [NInt 0; NInt 1; y]]) ;;
  shp <- get_shape image ;;
  w <- shape_index shp 1 ;;
  h <- shape_index shp 0 ;;
  call (cv_warpAffine image transMat (w, h)).

(** The local [centre] of [rotate] is assigned in one branch only; it is
    modelled as an optional binding, and reading it while unbound raises
    [UnboundLocalError]. *)
Definition rotate (image angle rotPoint : pyval) : py ndarray :=
  shp <- get_shape image ;;
  match firstn 2 shp with
  | [height; width] =>
      let centre :=
        if is_None rotPoint then Some (width / 2, height / 2)%nat else None in
      match centre with
      | Some c =>
          rotMat <- call (cv_getRotationMatrix2D c angle 1.0%float) ;;
          call (cv_warpAffine image rotMat (width, height))
      | None => Raise (UnboundLocalError "centre")
      end
  | l =>
      Raise (ValueError ("not enough values to unpack (expected 2, got "
                         ++ str_of_nat (List.length l) ++ ")"))
  end.

(** ** Statistics *)

Definition mean (image mask : pyval) : py (list float) :=
  TryCall (cv_mean image mask)
          (fun _ => Raise (ValueError "mean() expects an image"))
          Ret.

(** ** Colour conversions *)

(** The eight conversions have one body, up to the wording of the error
    and the conversion code: the check of [len(img.shape)], then one
    [cv.cvtColor] call. *)
Definition shape_error (found : nat) (purpose : string) : exn :=
  ValueError ("Image of shape 3 expected. Found shape " ++ str_of_nat found
              ++ ". This method converts " ++ purpose).

Section Conversions.

Variable G : globals.

Definition convert (purpose : string) (code : Z) (img : pyval) : py ndarray :=
  shp <- get_shape img ;;
  if negb (List.length shp =? 3)%nat
  then Raise (shape_error (List.length shp) purpose)
  else call (cv_cvtColor img code).

Definition bgr_to_rgb : pyval -> py ndarray :=
  convert "a BGR image to its RGB counterpart" (BGR2RGB G).

Definition rgb_to_bgr : pyval -> py ndarray :=
  convert "an RGB image to its BGR counterpart" (RGB2BGR G).

Definition bgr_to_gray : pyval -> py ndarray :=
  convert "a BGR image to its Grayscale counterpart" (BGR2GRAY G).

Definition rgb_to_gray : pyval -> py ndarray :=
  convert "an RGB image to its Grayscale counterpart" (RGB2GRAY G).

Definition bgr_to_hsv : pyval -> py ndarray :=
  convert "a BGR image to its HSV counterpart" (BGR2HSV G).

Definition rgb_to_hsv : pyval -> py ndarray :=
  convert "an RGB image to its HSV counterpart" (RGB2HSV G).

Definition bgr_to_lab : pyval -> py ndarray :=
  convert "a BGR image to its LAB counterpart" (BGR2LAB G).

Definition rgb_to_lab : pyval -> py ndarray :=
  convert "an RGB image to its LAB counterpart" (RGB2LAB G).

(** ** Network image loader *)

(** [bytearray(b)] on the bytes read from the response. *)
Definition bytearray (b : list Z) : list Z := b.

Definition url_to_image (url : pyval) (rgb : bool) : py pyval :=
  response <- call (urlopen url) ;;
  raw <- call (response_read response) ;;
  image <- call (asarray (bytearray raw) "uint8") ;;
  image <- call (cv_imdecode image (IMREAD_COLOR G)) ;;
  if rgb then (a <- bgr_to_rgb image ;; Ret (PyArr a)) else Ret image.

End Conversions.

(** ** Propagation of primitive failures *)

(** Programs in which no primitive call sits under a [try]. *)
Inductive uncaught {A : Type} : py A -> Prop :=
| uncaught_Ret (a : A) : uncaught (Ret a)
| uncaught_Raise (e : exn) : uncaught (Raise e)
| uncaught_Call (X : Type) (p : prim X) (k : X -> py A) :
    (forall x : X, uncaught (k x)) -> uncaught (Call p k).

(** The failure met by a run, if the run meets one: the exception of the
    first primitive that answers with one. *)
Fixpoint prim_failure {A : Type} (h : handler) (m : py A) : option exn :=
  match m with
  | Ret _ | Raise _ => None
  | Call p k | TryCall p _ k =>
      match h _ p with
      | Ok x => prim_failure h (k x)
      | Err e => Some e
      end
  end.

(** ** Contract of the affine warp *)

Definition is_zero (n : num) : bool :=
  match n with
  | NInt z => (z =? 0)%Z
  | NFloat f => PrimFloat.eqb f 0%float
  end.

Definition is_one (n : num) : bool :=
  match n with
  | NInt z => (z =? 1)%Z
  | NFloat f => PrimFloat.eqb f 1%float
  end.

(** The matrix of the identity map: [[1, 0, 0], [0, 1, 0]]. *)
Definition identity_affine (M : matrix) : bool :=
  match rows M with
  | [[a; b; c]; [d; e; f]] =>
      is_one a && is_zero b && is_zero c
      && is_zero d && is_one e && is_zero f
  | _ => false
  end.

(** What the size statements rely on from [cv.warpAffine], which the
    module does not define: a warp that succeeds fills a canvas of the
    requested width and height. *)
Definition warp_canvas (h : handler) : Prop :=
  forall (src : pyval) (M : matrix) (w hh : nat) (out : ndarray),
    h _ (cv_warpAffine src M (w, hh)) = Ok out ->
    firstn 2 (shape out) = [hh; w].

(** ** A sample world *)

(** Concrete answers to the primitives, used to run the programs on
    examples.  The warp keeps the image under the identity map and
    otherwise hands out a blank canvas of the requested size. *)
Definition blank (shp : list nat) : ndarray :=
  mk_ndarray shp (repeat 0%Z (fold_right Nat.mul 1%nat shp)).

Definition sample_warp (src : pyval) (M : matrix) (dsize : nat * nat)
  : result ndarray :=
  match src with
  | PyArr a =>
      let (w, hh) := dsize in
      if list_eq_dec Nat.eq_dec (firstn 2 (shape a)) [hh; w] then
        if identity_affine M then Ok a
        else Ok (blank (hh :: w :: skipn 2 (shape a)))
      else Ok (blank (hh :: w :: skipn 2 (shape a)))
  | _ => Err (LibError "cv2" "src is not a numpy array")
  end.

Fixpoint insert_sorted (z : Z) (l : list Z) : list Z :=
  match l with
  | [] => [z]
  | y :: l' => if (z <=? y)%Z then z :: l else y :: insert_sorted z l'
  end.

Definition sort_samples (l : list Z) : list Z :=
  fold_right insert_sorted [] l.

Definition float_of_sample (z : Z) : float := PrimFloat.of_uint63 (Uint63.of_Z z).

(** Modelled from the spec: [median] of [caer.utilities] is not part of the
    sources; the specification calls its result the median pixel intensity
    of the image.  On the sorted samples: the middle one, or the mean of
    the two middle ones. *)
Definition median_of (a : ndarray) : float :=
  let s := sort_samples (data a) in
  let n := List.length s in
  if Nat.even n then
    ((float_of_sample (nth (n / 2 - 1) s 0%Z)
      + float_of_sample (nth (n / 2) s 0%Z)) / 2)%float
  else float_of_sample (nth (n / 2) s 0%Z).

Definition sample_median (v : pyval) : result float :=
  match v with
  | PyArr a => Ok (median_of a)
  | _ => Err (LibError "numpy" "cannot take the median")
  end.

Definition sample_array (v : pyval) : result ndarray :=
  match v with
  | PyArr a => Ok a
  | _ => Err (LibError "cv2" "img is not a numpy array")
  end.

Definition sample_handler : handler :=
  fun (X : Type) (p : prim X) =>
    match p in prim T return result T with
    | cv_warpAffine src M dsize => sample_warp src M dsize
    | cv_getRotationMatrix2D _ _ _ =>
        Ok (mk_matrix float64
              [[NFloat 1; NFloat 0; NFloat 0]; [NFloat 0; NFloat 1; NFloat 0]])
    | cv_Canny img _ _ => sample_array img
    | cv_mean _ _ => Ok [0%float; 0%float; 0%float; 0%float]
    | cv_cvtColor img _ => sample_array img
    | cv_imdecode buf _ => Ok (PyArr (mk_ndarray [1; 1; 3]%nat (data buf)))
    | median img => sample_median img
    | asarray bytes _ => Ok (mk_ndarray [List.length bytes] bytes)
    | urlopen _ => Ok (Response 0)
    | response_read _ => Ok [66; 71; 82]%Z
    end.

(** The same world with the network down. *)
Definition offline_handler : handler :=
  fun (X : Type) (p : prim X) =>
    match p in prim T return result T with
    | urlopen _ => Err (LibError "urllib" "URLError")
    | q => sample_handler _ q
    end.

(** The conversion codes of OpenCV, for running examples. *)
Definition cv_globals : globals :=
  mk_globals 6 4 40 44 4 7 41 45 1.

(** A 2x2 grayscale image and a 1x2 colour image. *)
Definition gray22 : ndarray := mk_ndarray [2; 2]%nat [90; 120; 80; 110]%Z.
Definition bgr12 : ndarray := mk_ndarray [1; 2; 3]%nat [1; 2; 3; 4; 5; 6]%Z.

(** ** The rest of the module *)

(** [get_opencv_version]: the first character of [cv.__version__], the
    version string of the library, taken as a parameter. *)
Definition get_opencv_version (version : string) : result string :=
  match version with
  | EmptyString => Err (IndexError "string index out of range")
  | String c _ => Ok (String c EmptyString)
  end.

(** The eight conversions with the wording of their error and their code,
    for statements that range over all of them. *)
Definition conversions (G : globals)
  : list (string * Z * (pyval -> py ndarray)) :=
  [ ("a BGR image to its RGB counterpart", BGR2RGB G, bgr_to_rgb G);
    ("an RGB image to its BGR counterpart", RGB2BGR G, rgb_to_bgr G);
    ("a BGR image to its Grayscale counterpart", BGR2GRAY G, bgr_to_gray G);
    ("an RGB image to its Grayscale counterpart", RGB2GRAY G, rgb_to_gray G);
    ("a BGR image to its HSV counterpart", BGR2HSV G, bgr_to_hsv G);
    ("an RGB image to its HSV counterpart", RGB2HSV G, rgb_to_hsv G);
    ("a BGR image to its LAB counterpart", BGR2LAB G, bgr_to_lab G);
    ("an RGB image to its LAB counterpart", RGB2LAB G, rgb_to_lab G) ].

(** *** The wider set of primitives *)

(** [merge], [split], [energy_map] and [color_map] call primitives beyond
    those above.  [xprim] adds them to [prim]; [xpy] is the type of
    programs over [xprim], and [widen] takes a program over [prim] into
    it, so that the visualization helpers can call [bgr_to_gray]. *)
Inductive depth : Type := CV_16S.

Inductive xprim : Type -> Type :=
| base (X : Type) (p : prim X) : xprim X
| cv_merge (mv : pyval) : xprim ndarray
| cv_split (m : pyval) : xprim (list ndarray)
| ndarray_astype (a : ndarray) (dt : string) : xprim ndarray
| cv_Sobel (src : ndarray) (ddepth : depth) (dx dy ksize : Z) : xprim ndarray
| cv_convertScaleAbs (src : ndarray) : xprim ndarray
| cv_applyColorMap (src : ndarray) (colormap : Z) : xprim ndarray
| cv_addWeighted (src1 : ndarray) (alpha : float) (src2 : pyval)
    (beta : float) (gamma : Z) : xprim ndarray.

Arguments base {X} p.

Inductive xpy (A : Type) : Type :=
| XRet (a : A)
| XRaise (e : exn)
| XCall (X : Type) (p : xprim X) (k : X -> xpy A)
| XTryCall (X : Type) (p : xprim X) (except : exn -> xpy A) (k : X -> xpy A).

Arguments XRet {A} a.
Arguments XRaise {A} e.
Arguments XCall {A X} p k.
Arguments XTryCall {A X} p except k.

Fixpoint xbind {A B : Type} (m : xpy A) (f : A -> xpy B) : xpy B :=
  match m with
  | XRet a => f a
  | XRaise e => XRaise e
  | XCall p k => XCall p (fun x => xbind (k x) f)
  | XTryCall p h k =>
      XTryCall p (fun e => xbind (h e) f) (fun x => xbind (k x) f)
  end.

Definition xcall {X : Type} (p : xprim X) : xpy X := XCall p XRet.

Fixpoint widen {A : Type} (m : py A) : xpy A :=
  match m with
  | Ret a => XRet a
  | Raise e => XRaise e
  | Call p k => XCall (base p) (fun x => widen (k x))
  | TryCall p h k =>
      XTryCall (base p) (fun e => widen (h e)) (fun x => widen (k x))
  end.

Definition xhandler : Type := forall X : Type, xprim X -> result X.

(** The answers of a wide world to the primitives of [prim]. *)
Definition narrow (hx : xhandler) : handler :=
  fun (X : Type) (p : prim X) => hx X (base p).

Fixpoint xrun {A : Type} (hx : xhandler) (m : xpy A) : result A :=
  match m with
  | XRet a => Ok a
  | XRaise e => Err e
  | XCall p k =>
      match hx _ p with
      | Ok x => xrun hx (k x)
      | Err e => Err e
      end
  | XTryCall p ex k =>
      match hx _ p with
      | Ok x => xrun hx (k x)
      | Err e => xrun hx (ex e)
      end
  end.

Inductive xuncaught {A : Type} : xpy A -> Prop :=
| xuncaught_Ret (a : A) : xuncaught (XRet a)
| xuncaught_Raise (e : exn) : xuncaught (XRaise e)
| xuncaught_Call (X : Type) (p : xprim X) (k : X -> xpy A) :
    (forall x : X, xuncaught (k x)) -> xuncaught (XCall p k).

Fixpoint xprim_failure {A : Type} (hx : xhandler) (m : xpy A) : option exn :=
  match m with
  | XRet _ | XRaise _ => None
  | XCall p k | XTryCall p _ k =>
      match hx _ p with
      | Ok x => xprim_failure hx (k x)
      | Err e => Some e
      end
  end.

Declare Scope xpy_scope.
Delimit Scope xpy_scope with xpy.
Notation "x <- c ;; k" := (xbind c (fun x => k))
  (at level 61, c at next level, right associativity) : xpy_scope.

(** *** [merge], [split] and the visualization helpers *)

Definition merge (img : pyval) : xpy ndarray := xcall (cv_merge img).

(** The [except] clause of [split] words its error as that of [mean]. *)
Definition split (img : pyval) : xpy (list ndarray) :=
  XTryCall (cv_split img)
           (fun _ => XRaise (ValueError "mean() expects an image"))
           XRet.

(** [img.astype]: only arrays have the method. *)
Definition get_astype (v : pyval) : xpy ndarray :=
  match v with
  | PyArr a => XRet a
  | _ =>
      XRaise (AttributeError
                ("'" ++ type_name v ++ "' object has no attribute 'astype'"))
  end.

Definition energy_map (G : globals) (img : pyval) : xpy ndarray :=
  (a <- get_astype img ;;
   img8 <- xcall (ndarray_astype a "uint8") ;;
   img <- widen (bgr_to_gray G (PyArr img8)) ;;
   dx <- xcall (cv_Sobel img CV_16S 1 0 3) ;;
   abs_x <- xcall (cv_convertScaleAbs dx) ;;
   dy <- xcall (cv_Sobel img CV_16S 0 1 3) ;;
   abs_y <- xcall (cv_convertScaleAbs dy) ;;
   xcall (cv_addWeighted abs_x 0.5 (PyArr abs_y) 0.5 0))%xpy.

Definition color_map (G : globals) (img : pyval) : xpy ndarray :=
  (gray_img <- widen (bgr_to_gray G img) ;;
   heatmap <- xcall (cv_applyColorMap gray_img 11) ;;
   xcall (cv_addWeighted heatmap 0.7 img 0.3 0))%xpy.

(** [merge(split(img))], the channels handed on as a tuple. *)
Definition merge_split (img : pyval) : xpy ndarray :=
  (channels <- split img ;; merge (PyTuple (map PyArr channels)))%xpy.

(** *** More sample worlds *)

(** A world in which every primitive fails with [e]. *)
Definition fail_handler (e : exn) : handler :=
  fun (X : Type) (_ : prim X) => Err e.

Definition fail_xhandler (e : exn) : xhandler :=
  fun (X : Type) (_ : xprim X) => Err e.

(** The sample world with a given answer of [median]. *)
Definition median_handler (m : float) : handler :=
  fun (X : Type) (p : prim X) =>
    match p in prim T return result T with
    | median _ => Ok m
    | q => sample_handler _ q
    end.

(** The sample world with a decoder that hands out [None]. *)
Definition undecodable_handler : handler :=
  fun (X : Type) (p : prim X) =>
    match p in prim T return result T with
    | cv_imdecode _ _ => Ok PyNone
    | q => sample_handler _ q
    end.

(** A wide sample world: the channels of an image are its samples taken
    with a stride, gradients are blank, blends keep their first image. *)
Definition sample_xhandler : xhandler :=
  fun (X : Type) (p : xprim X) =>
    match p in xprim T return result T with
    | base q => sample_handler _ q
    | cv_merge (PyTuple (PyArr a :: rest)) =>
        Ok (mk_ndarray (shape a ++ [S (List.length rest)]) (data a))
    | cv_merge _ => Err (LibError "cv2" "mv is not a sequence of arrays")
    | cv_split (PyArr a) =>
        Ok (repeat (mk_ndarray (firstn 2 (shape a)) (data a))
              (nth 2 (shape a) 1%nat))
    | cv_split _ => Err (LibError "cv2" "m is not a numpy array")
    | ndarray_astype a _ =>
        Ok (mk_ndarray (shape a) (map (fun z => z mod 256)%Z (data a)))
    | cv_Sobel src _ _ _ _ => Ok (blank (shape src))
    | cv_convertScaleAbs src =>
        Ok (mk_ndarray (shape src) (map Z.abs (data src)))
    | cv_applyColorMap src _ => Ok (blank (shape src ++ [3%nat]))
    | cv_addWeighted src1 _ _ _ _ => Ok src1
    end.

(** * Theorems *)

(** ** Runs on examples *)

Example edges_flag_not_bool :
  edges (PyArr gray22) (PyInt 50) (PyInt 150) (PyInt 1) None
  = Raise (ValueError "use_median must be a boolean").
Proof. reflexivity. Qed.

Example edges_image_None :
  edges PyNone (PyInt 50) (PyInt 150) (PyBool true) None
  = Raise (ValueError "Image is of NoneType()").
Proof. reflexivity. Qed.

Example edges_manual_run :
  edges (PyArr gray22) (PyInt 50) (PyInt 150) (PyBool false) None
  = call (cv_Canny (PyArr gray22) (PyInt 50) (PyInt 150)).
Proof. reflexivity. Qed.

Example auto_thresholds_bright_image :
  auto_low None 200%float = Ok 140%Z /\ auto_high None 200%float = Ok 255%Z.
Proof. split; vm_compute; reflexivity. Qed.

Example auto_thresholds_infinite_median :
  auto_low None infinity
  = Err (OverflowError "cannot convert float infinity to integer").
Proof. vm_compute. reflexivity. Qed.

Example rotate_gray22 :
  rotate (PyArr gray22) (PyInt 90) PyNone
  = (rotMat <- call (cv_getRotationMatrix2D (1, 1)%nat (PyInt 90) 1.0%float) ;;
     call (cv_warpAffine (PyArr gray22) rotMat (2, 2)%nat)).
Proof. reflexivity. Qed.

Example rotate_flat_array :
  rotate (PyArr (mk_ndarray [4]%nat [1; 2; 3; 4]%Z)) (PyInt 90) PyNone
  = Raise (ValueError "not enough values to unpack (expected 2, got 1)").
Proof. reflexivity. Qed.

Example bgr_to_rgb_colour :
  bgr_to_rgb cv_globals (PyArr bgr12) = call (cv_cvtColor (PyArr bgr12) 4).
Proof. reflexivity. Qed.

Example bgr_to_rgb_None :
  bgr_to_rgb cv_globals PyNone
  = Raise (AttributeError "'NoneType' object has no attribute 'shape'").
Proof. reflexivity. Qed.

Example url_to_image_online :
  run sample_handler (url_to_image cv_globals (PyStr "http://host/a.png") true)
  = Ok (PyArr (mk_ndarray [1; 1; 3]%nat [66; 71; 82]%Z)).
Proof. reflexivity. Qed.

(** C1: [edges(img, threshold1=None, threshold2=None, use_median=True)]
    raises the integer-type validation error for every image and every
    sigma, without calling any primitive; more generally, with
    [use_median=True] the call is refused as soon as one of the two
    thresholds is not an integer. *)
Theorem edges_auto_needs_int_thresholds :
  forall (img : pyval) (sigma : option float),
    edges img PyNone PyNone (PyBool true) sigma
    = Raise (ValueError "Threshold values must be integers")
    /\ forall t1 t2 : pyval,
         isinstance_int t1 && isinstance_int t2 = false ->
         edges img t1 t2 (PyBool true) sigma
         = Raise (ValueError "Threshold values must be integers").
Proof.
  intros img sigma. split; [reflexivity|].
  intros t1 t2 Hty. unfold edges. cbn [isinstance_bool negb].
  apply andb_false_iff in Hty. destruct Hty as [H | H]; rewrite H.
  - reflexivity.
  - rewrite orb_true_r. reflexivity.
Qed.

Lemma edges_auto_needs_int_thresholds_witness :
  edges (PyArr (mk_ndarray [1; 1]%nat [7%Z])) PyNone (PyInt 3) (PyBool true) None
  = Raise (ValueError "Threshold values must be integers").
Proof.
  apply (proj2 (edges_auto_needs_int_thresholds
                  (PyArr (mk_ndarray [1; 1]%nat [7%Z])) None)
           PyNone (PyInt 3) eq_refl).
Defined.

(** ** Helper lemmas on [edges] *)

Lemma isinstance_int_not_None (v : pyval) :
  isinstance_int v = true -> is_None v = false.
Proof. destruct v; simpl; congruence. Qed.

(** Past its validation, a call in automatic mode is the median call
    followed by the two threshold computations and the detector call. *)
Lemma edges_auto_unfold (img t1 t2 : pyval) (sigma : option float) :
  is_None img = false ->
  isinstance_int t1 = true ->
  isinstance_int t2 = true ->
  edges img t1 t2 (PyBool true) sigma
  = (med <- call (median img) ;;
     low <- lift (py_int (py_max (NInt 0)
                    (NFloat ((1.0 - sigma_or_default sigma) * med)))) ;;
     up <- lift (py_int (py_min (NInt 255)
                   (NFloat ((1.0 + sigma_or_default sigma) * med)))) ;;
     call (cv_Canny img (PyInt low) (PyInt up))).
Proof.
  intros Himg H1 H2. unfold edges.
  rewrite H1, H2, Himg. destruct sigma; reflexivity.
Qed.

Lemma py_int_max_zero (x : float) :
  py_int (py_max (NInt 0) (NFloat x))
  = if int_lt_float 0 x then py_int (NFloat x) else Ok 0%Z.
Proof. unfold py_max, num_lt. destruct (int_lt_float 0 x); reflexivity. Qed.

Lemma py_int_min_255 (y : float) :
  py_int (py_min (NInt 255) (NFloat y))
  = if float_lt_int y 255 then py_int (NFloat y) else Ok 255%Z.
Proof. unfold py_min, num_lt. destruct (float_lt_int y 255); reflexivity. Qed.

(** The thresholds of automatic mode stay inside the sample range: the
    low one is never negative, the high one never above 255. *)
Lemma auto_low_nonneg (sigma : option float) (med : float) (low : Z) :
  auto_low sigma med = Ok low -> (0 <= low)%Z.
Proof.
  unfold auto_low, int_lt_float, py_int. cbv zeta.
  destruct (Prim2SF _) as [s|s| |s m e].
  - simpl. intros [= <-]. lia.
  - destruct (negb s); [discriminate | intros [= <-]; lia].
  - intros [= <-]. lia.
  - destruct (0 <=? e)%Z eqn:He.
    + apply Z.leb_le in He.
      destruct (0 <? signed s m * 2 ^ e)%Z eqn:Hc; intros [= <-]; [|lia].
      apply Z.ltb_lt in Hc. lia.
    + apply Z.leb_gt in He.
      destruct (0 * 2 ^ (- e) <? signed s m)%Z eqn:Hc; intros [= <-]; [|lia].
      apply Z.ltb_lt in Hc. apply Z.quot_pos; [lia|].
      apply Z.pow_pos_nonneg; lia.
Qed.

Lemma auto_high_le_255 (sigma : option float) (med : float) (high : Z) :
  auto_high sigma med = Ok high -> (high <= 255)%Z.
Proof.
  unfold auto_high, float_lt_int, py_int. cbv zeta.
  destruct (Prim2SF _) as [s|s| |s m e].
  - simpl. intros [= <-]. lia.
  - destruct s; [discriminate | intros [= <-]; lia].
  - intros [= <-]. lia.
  - destruct (0 <=? e)%Z eqn:He.
    + destruct (signed s m * 2 ^ e <? 255)%Z eqn:Hc; intros [= <-]; [|lia].
      apply Z.ltb_lt in Hc. lia.
    + apply Z.leb_gt in He.
      destruct (signed s m <? 255 * 2 ^ (- e))%Z eqn:Hc; intros [= <-]; [|lia].
      apply Z.ltb_lt in Hc.
      assert (Hp : (0 < 2 ^ (- e))%Z) by (apply Z.pow_pos_nonneg; lia).
      destruct s; unfold signed in *.
      * assert (Z.quot (Z.neg m) (2 ^ (- e)) <= 0)%Z; [|lia].
        change (Z.neg m) with (- Z.pos m)%Z. rewrite Z.quot_opp_l by lia.
        assert (0 <= Z.quot (Z.pos m) (2 ^ (- e)))%Z; [|lia].
        apply Z.quot_pos; lia.
      * apply Z.lt_le_incl. apply Z.quot_lt_upper_bound; lia.
Qed.

(** C3: in manual mode ([use_median=False]) a call with an absent threshold
    is refused by the integer-type check, which comes first: the message is
    'Threshold values must be integers', and no call of [edges] whatsoever
    ends in the missing-threshold error 'Specify valid threshold values'. *)
Theorem edges_manual_missing_threshold :
  forall (img t : pyval) (sigma : option float),
    edges img PyNone t (PyBool false) sigma
    = Raise (ValueError "Threshold values must be integers")
    /\ edges img t PyNone (PyBool false) sigma
       = Raise (ValueError "Threshold values must be integers")
    /\ forall t1 t2 use_median : pyval,
         edges img t1 t2 use_median sigma
         <> Raise (ValueError "Specify valid threshold values").
Proof.
  intros img t sigma. split; [reflexivity|]. split.
  - unfold edges. cbn [isinstance_bool isinstance_int negb].
    rewrite orb_true_r. reflexivity.
  - intros t1 t2 um. unfold edges.
    destruct (isinstance_bool um); cbn [negb]; [|discriminate].
    destruct (isinstance_int t1) eqn:H1; cbn [negb orb]; [|discriminate].
    destruct (isinstance_int t2) eqn:H2; cbn [negb]; [|discriminate].
    destruct (is_None img); [discriminate|].
    rewrite (isinstance_int_not_None _ H1), (isinstance_int_not_None _ H2).
    rewrite andb_false_r.
    destruct (truth um); discriminate.
Qed.

(** C5: in automatic mode, whatever the primitives answer, [edges] behaves
    as the specification words it: it takes the median of the image, sets
    low = int(max(0, (1 - sigma) * median)) and
    high = int(min(255, (1 + sigma) * median)) with sigma 0.3 when none is
    given, and its result is the answer of the Canny primitive called with
    exactly (low, high). *)
Theorem edges_auto_median_thresholds :
  forall (h : handler) (img t1 t2 : pyval) (sigma : option float),
    is_None img = false ->
    isinstance_int t1 = true ->
    isinstance_int t2 = true ->
    run h (edges img t1 t2 (PyBool true) sigma) = run h (auto_edges img sigma)
    /\ forall (med : float) (low high : Z),
         h _ (median img) = Ok med ->
         auto_low sigma med = Ok low ->
         auto_high sigma med = Ok high ->
         run h (edges img t1 t2 (PyBool true) sigma)
         = h _ (cv_Canny img (PyInt low) (PyInt high)).
Proof.
  intros h img t1 t2 sigma Himg H1 H2.
  rewrite (edges_auto_unfold img t1 t2 sigma Himg H1 H2).
  unfold auto_edges, auto_low, auto_high. cbn [bind call run].
  split.
  - destruct (h _ (median img)) as [med|e]; [|reflexivity].
    rewrite py_int_max_zero, py_int_min_255. reflexivity.
  - intros med low high Hmed Hlow Hhigh. rewrite Hmed.
    rewrite py_int_max_zero, py_int_min_255, Hlow. cbn [lift bind].
    rewrite Hhigh. cbn [lift bind]. unfold call. cbn [run].
    destruct (h _ (cv_Canny img (PyInt low) (PyInt high))); reflexivity.
Qed.

Lemma edges_auto_median_thresholds_witness :
  run sample_handler
    (edges (PyArr gray22) (PyInt 0) (PyInt 0) (PyBool true) None)
  = sample_handler _ (cv_Canny (PyArr gray22) (PyInt 70) (PyInt 130)).
Proof.
  apply (proj2 (edges_auto_median_thresholds sample_handler (PyArr gray22)
                  (PyInt 0) (PyInt 0) None eq_refl eq_refl eq_refl)
           100%float 70%Z 130%Z);
    vm_compute; reflexivity.
Defined.

(** C10: in automatic mode the thresholds are dead inputs: two calls
    that differ only in their (integer) thresholds are the same program,
    hence give the same result whatever the primitives answer. *)
Theorem edges_auto_ignores_thresholds :
  forall (img : pyval) (sigma : option float) (t1 t2 t1' t2' : pyval),
    isinstance_int t1 = true -> isinstance_int t2 = true ->
    isinstance_int t1' = true -> isinstance_int t2' = true ->
    edges img t1 t2 (PyBool true) sigma = edges img t1' t2' (PyBool true) sigma
    /\ forall h : handler,
         run h (edges img t1 t2 (PyBool true) sigma)
         = run h (edges img t1' t2' (PyBool true) sigma).
Proof.
  intros img sigma t1 t2 t1' t2' H1 H2 H1' H2'.
  assert (E : edges img t1 t2 (PyBool true) sigma
              = edges img t1' t2' (PyBool true) sigma).
  { unfold edges. rewrite H1, H2, H1', H2'. reflexivity. }
  split; [exact E|]. intros h. rewrite E. reflexivity.
Qed.

Lemma edges_auto_ignores_thresholds_witness :
  edges (PyArr gray22) (PyInt 50) (PyInt 150) (PyBool true) (Some 0.5%float)
  = edges (PyArr gray22) (PyInt 0) (PyBool true) (PyBool true) (Some 0.5%float).
Proof.
  apply (proj1 (edges_auto_ignores_thresholds (PyArr gray22)
                  (Some 0.5%float) (PyInt 50) (PyInt 150) (PyInt 0)
                  (PyBool true) eq_refl eq_refl eq_refl eq_refl)).
Defined.

(** ** Helper lemmas on the transforms *)

Lemma image_shape (a : ndarray) :
  is_image a = true ->
  exists (hh w : nat) (rest : list nat), shape a = hh :: w :: rest.
Proof.
  unfold is_image, ndim. destruct (shape a) as [|hh [|w rest]]; simpl.
  - discriminate.
  - discriminate.
  - intros _. exists hh, w, rest. reflexivity.
Qed.

(** The matrix of a translation is built unless an offset is an integer
    that no float can hold. *)
Lemma np_float32_translation (x y : num) :
  np_float32 [[NInt 1; NInt 0; x]; [NInt 0; NInt 1; y]]
  = if float_able x && float_able y
    then Ok (mk_matrix float32 [[NInt 1; NInt 0; x]; [NInt 0; NInt 1; y]])
    else Err (OverflowError "int too large to convert to float").
Proof.
  assert (H1 : float_able (NInt 1) = true) by (vm_compute; reflexivity).
  assert (H0 : float_able (NInt 0) = true) by (vm_compute; reflexivity).
  unfold np_float32. cbn [forallb]. rewrite H1, H0. cbn [andb].
  rewrite !andb_true_r.
  destruct (float_able x), (float_able y); reflexivity.
Qed.


(** With an offset that does not fit, [translate] ends in the
    [OverflowError] of [np.float32], whatever it was given as image. *)
Lemma translate_overflow (image : pyval) (x y : num) :
  float_able x && float_able y = false ->
  translate image x y
  = Raise (OverflowError "int too large to convert to float").
Proof.
  intros H. unfold translate. rewrite np_float32_translation, H. reflexivity.
Qed.

(** Without a rotation point, [rotate] turns the image about
    [(width // 2, height // 2)] at scale 1.0 and warps onto a canvas of the
    width and height of the image. *)
Lemma rotate_default_centre (a : ndarray) (angle : pyval) (hh w : nat)
    (rest : list nat) :
  shape a = hh :: w :: rest ->
  rotate (PyArr a) angle PyNone
  = (rotMat <- call (cv_getRotationMatrix2D (w / 2, hh / 2)%nat angle 1.0%float) ;;
     call (cv_warpAffine (PyArr a) rotMat (w, hh))).
Proof. intros Hs. unfold rotate, get_shape. rewrite Hs. reflexivity. Qed.

Lemma sample_warp_canvas : warp_canvas sample_handler.
Proof.
  intros src M w hh out. cbn [sample_handler]. unfold sample_warp.
  destruct src as [| | | | | |a]; try discriminate.
  destruct (list_eq_dec Nat.eq_dec (firstn 2 (shape a)) [hh; w]) as [E|_].
  - destruct (identity_affine M); intros Hout; injection Hout as <-;
      [exact E | reflexivity].
  - intros Hout. injection Hout as <-. reflexivity.
Qed.

(** C2 (code defect): when a rotation point is supplied, [rotate] does not
    rotate about it: the local [centre] is bound only when [rotPoint] is
    [None], so on every image and angle the call ends in
    [UnboundLocalError] before any primitive is called. *)
Theorem rotate_supplied_centre_unbound :
  forall (a : ndarray) (angle rotPoint : pyval),
    is_image a = true ->
    is_None rotPoint = false ->
    rotate (PyArr a) angle rotPoint = Raise (UnboundLocalError "centre")
    /\ forall h : handler,
         run h (rotate (PyArr a) angle rotPoint)
         = Err (UnboundLocalError "centre").
Proof.
  intros a angle rp Hi Hrp.
  destruct (image_shape a Hi) as (hh & w & rest & Hs).
  assert (E : rotate (PyArr a) angle rp = Raise (UnboundLocalError "centre")).
  { unfold rotate, get_shape. rewrite Hs, Hrp. reflexivity. }
  split; [exact E|]. intros h. rewrite E. reflexivity.
Qed.

Lemma rotate_supplied_centre_unbound_witness :
  rotate (PyArr gray22) (PyInt 90) (PyTuple [PyInt 0; PyInt 0])
  = Raise (UnboundLocalError "centre").
Proof.
  apply (proj1 (rotate_supplied_centre_unbound gray22 (PyInt 90)
                  (PyTuple [PyInt 0; PyInt 0]) eq_refl eq_refl)).
Defined.




(** ** Colour conversions and the loader *)

Section ConversionFacts.

Variable G : globals.

(** A conversion is its shape check followed by one [cv.cvtColor] call. *)
Lemma convert_3d (purpose : string) (code : Z) (a : ndarray) :
  ndim a = 3%nat ->
  convert purpose code (PyArr a) = call (cv_cvtColor (PyArr a) code).
Proof.
  unfold ndim. intros H. unfold convert, get_shape. cbn [bind].
  rewrite H. reflexivity.
Qed.

Lemma convert_not_3d (purpose : string) (code : Z) (a : ndarray) :
  ndim a <> 3%nat ->
  convert purpose code (PyArr a) = Raise (shape_error (ndim a) purpose).
Proof.
  unfold ndim. intros H. unfold convert, get_shape. cbn [bind].
  apply Nat.eqb_neq in H. rewrite H. reflexivity.
Qed.

(** The round trip of the two wrappers is the round trip of the primitive,
    as long as the primitive keeps the image 3-dimensional. *)
Lemma bgr_rgb_roundtrip_is_cvtColor (h : handler) (a mid : ndarray) :
  ndim a = 3%nat ->
  h _ (cv_cvtColor (PyArr a) (BGR2RGB G)) = Ok mid ->
  ndim mid = 3%nat ->
  run h (rgb <- bgr_to_rgb G (PyArr a) ;; rgb_to_bgr G (PyArr rgb))
  = h _ (cv_cvtColor (PyArr mid) (RGB2BGR G)).
Proof.
  intros Ha Hmid Hm. unfold bgr_to_rgb, rgb_to_bgr.
  rewrite (convert_3d _ _ a Ha). unfold call. cbn [bind run].
  rewrite Hmid. rewrite (convert_3d _ _ mid Hm). unfold call. cbn [run].
  destruct (h _ (cv_cvtColor (PyArr mid) (RGB2BGR G))); reflexivity.
Qed.

Lemma uncaught_bind {A B : Type} (m : py A) (f : A -> py B) :
  uncaught m -> (forall a : A, uncaught (f a)) -> uncaught (bind m f).
Proof.
  intros Hm Hf. induction Hm as [a|e|X p k _ IH]; cbn [bind].
  - apply Hf.
  - constructor.
  - constructor. exact IH.
Qed.

Lemma uncaught_call {X : Type} (p : prim X) : uncaught (call p).
Proof. unfold call. constructor. intros x. constructor. Qed.

Lemma uncaught_convert (purpose : string) (code : Z) (img : pyval) :
  uncaught (convert purpose code img).
Proof.
  unfold convert. apply uncaught_bind.
  - destruct img; constructor.
  - intros shp. destruct (negb (List.length shp =? 3)%nat).
    + constructor.
    + apply uncaught_call.
Qed.

(** No call of [url_to_image] sits under a [try]. *)
Lemma url_to_image_uncaught (url : pyval) (rgb : bool) :
  uncaught (url_to_image G url rgb).
Proof.
  unfold url_to_image.
  repeat (apply uncaught_bind; [apply uncaught_call | intros ?]).
  destruct rgb.
  - apply uncaught_bind; [apply uncaught_convert | intros; constructor].
  - constructor.
Qed.

End ConversionFacts.

(** A program without [try] ends in the first failure of a primitive. *)
Lemma uncaught_propagates {A : Type} (h : handler) (m : py A) (e : exn) :
  uncaught m -> prim_failure h m = Some e -> run h m = Err e.
Proof.
  intros Hm. induction Hm as [a|e'|X p k _ IH]; cbn [prim_failure run].
  - discriminate.
  - discriminate.
  - destruct (h X p) as [x|e'].
    + apply IH.
    + intros [= ->]. reflexivity.
Qed.

(** A program without [try] that returns has met no failure. *)
Lemma uncaught_ok_no_failure {A : Type} (h : handler) (m : py A) (v : A) :
  uncaught m -> run h m = Ok v -> prim_failure h m = None.
Proof.
  intros Hm Hrun. destruct (prim_failure h m) as [e|] eqn:Hf; [|reflexivity].
  rewrite (uncaught_propagates h m e Hm Hf) in Hrun. discriminate.
Qed.

(** [mean] hands on what [cv.mean] returns, and turns any failure of
    [cv.mean] into its own [ValueError]. *)
Lemma mean_passthrough (h : handler) (image mask : pyval) :
  run h (mean image mask)
  = match h _ (cv_mean image mask) with
    | Ok s => Ok s
    | Err _ => Err (ValueError "mean() expects an image")
    end.
Proof.
  unfold mean. cbn [run]. destruct (h _ (cv_mean image mask)); reflexivity.
Qed.

(** C7: on a 2-dimensional (grayscale) image each of the eight colour
    conversions raises its shape-validation error; the program is the
    [raise] alone, so no conversion primitive is called. *)
Theorem conversions_reject_grayscale :
  forall (G : globals) (a : ndarray),
    ndim a = 2%nat ->
    bgr_to_rgb G (PyArr a)
    = Raise (ValueError "Image of shape 3 expected. Found shape 2. This method converts a BGR image to its RGB counterpart")
    /\ rgb_to_bgr G (PyArr a)
       = Raise (ValueError "Image of shape 3 expected. Found shape 2. This method converts an RGB image to its BGR counterpart")
    /\ bgr_to_gray G (PyArr a)
       = Raise (ValueError "Image of shape 3 expected. Found shape 2. This method converts a BGR image to its Grayscale counterpart")
    /\ rgb_to_gray G (PyArr a)
       = Raise (ValueError "Image of shape 3 expected. Found shape 2. This method converts an RGB image to its Grayscale counterpart")
    /\ bgr_to_hsv G (PyArr a)
       = Raise (ValueError "Image of shape 3 expected. Found shape 2. This method converts a BGR image to its HSV counterpart")
    /\ rgb_to_hsv G (PyArr a)
       = Raise (ValueError "Image of shape 3 expected. Found shape 2. This method converts an RGB image to its HSV counterpart")
    /\ bgr_to_lab G (PyArr a)
       = Raise (ValueError "Image of shape 3 expected. Found shape 2. This method converts a BGR image to its LAB counterpart")
    /\ rgb_to_lab G (PyArr a)
       = Raise (ValueError "Image of shape 3 expected. Found shape 2. This method converts an RGB image to its LAB counterpart").
Proof.
  intros G a Ha.
  assert (N : ndim a <> 3%nat) by (rewrite Ha; discriminate).
  unfold bgr_to_rgb, rgb_to_bgr, bgr_to_gray, rgb_to_gray,
    bgr_to_hsv, rgb_to_hsv, bgr_to_lab, rgb_to_lab.
  rewrite !(convert_not_3d _ _ a N), Ha.
  repeat split; reflexivity.
Qed.

Lemma conversions_reject_grayscale_witness :
  bgr_to_rgb cv_globals (PyArr gray22)
  = Raise (ValueError "Image of shape 3 expected. Found shape 2. This method converts a BGR image to its RGB counterpart").
Proof.
  apply (proj1 (conversions_reject_grayscale cv_globals gray22 eq_refl)).
Defined.

(** Once the fetch, the read and the array conversion have answered,
    [url_to_image] is what it does with the answer of the decoder. *)
Lemma url_to_image_after_decode (G : globals) (h : handler) (url : pyval)
    (rgb : bool) (r : response) (raw : list Z) (buf : ndarray) (v : pyval) :
  h _ (urlopen url) = Ok r ->
  h _ (response_read r) = Ok raw ->
  h _ (asarray raw "uint8") = Ok buf ->
  h _ (cv_imdecode buf (IMREAD_COLOR G)) = Ok v ->
  run h (url_to_image G url rgb)
  = if rgb then run h (a <- bgr_to_rgb G v ;; Ret (PyArr a)) else Ok v.
Proof.
  intros Hr Hraw Hbuf Hv. unfold url_to_image, bytearray.
  cbn [bind call run]. rewrite Hr, Hraw, Hbuf, Hv.
  destruct rgb; reflexivity.
Qed.

(** C9 (amended): [url_to_image] catches nothing: no call of it sits
    under a [try], and whichever primitive raises first (the network
    fetch, the read of the response, the array conversion, the decoder or
    the colour conversion), its exception is the outcome of the call,
    unchanged, and no image is returned.  A byte stream that the decoder
    gives up on by answering [None] instead of raising is no such
    failure: nothing propagates, the call returns that [None] when RGB
    was not asked for, and ends in the [AttributeError] of [None.shape]
    when it was. *)
Theorem url_to_image_raises_or_hands_on_None :
  forall (G : globals) (h : handler) (url : pyval) (rgb : bool),
    uncaught (url_to_image G url rgb)
    /\ (forall e : exn,
           prim_failure h (url_to_image G url rgb) = Some e ->
           run h (url_to_image G url rgb) = Err e
           /\ forall v : pyval, run h (url_to_image G url rgb) <> Ok v)
    /\ (forall (r : response) (raw : list Z) (buf : ndarray),
           h _ (urlopen url) = Ok r ->
           h _ (response_read r) = Ok raw ->
           h _ (asarray raw "uint8") = Ok buf ->
           h _ (cv_imdecode buf (IMREAD_COLOR G)) = Ok PyNone ->
           run h (url_to_image G url rgb)
           = if rgb
             then Err (AttributeError
                         "'NoneType' object has no attribute 'shape'")
             else Ok PyNone).
Proof.
  intros G h url rgb.
  pose proof (url_to_image_uncaught G url rgb) as Hu.
  split; [exact Hu|]. split.
  - intros e Hf.
    pose proof (uncaught_propagates h _ e Hu Hf) as Hr.
    split; [exact Hr|]. intros v. rewrite Hr. discriminate.
  - intros r raw buf Hr Hraw Hbuf Hv.
    rewrite (url_to_image_after_decode G h url rgb r raw buf PyNone
               Hr Hraw Hbuf Hv).
    destruct rgb; reflexivity.
Qed.

Lemma url_to_image_raises_or_hands_on_None_witness :
  run offline_handler
    (url_to_image cv_globals (PyStr "http://unreachable.invalid/a.png") false)
  = Err (LibError "urllib" "URLError").
Proof.
  apply (proj1 (proj1 (proj2 (url_to_image_raises_or_hands_on_None cv_globals
                                offline_handler
                                (PyStr "http://unreachable.invalid/a.png")
                                false))
                  (LibError "urllib" "URLError") eq_refl)).
Defined.

(** C9, as stated, fails on a byte stream that cannot be decoded: in a
    world whose decoder answers [None] to it, no primitive raises and
    [url_to_image] returns [None]; no failure reaches the caller. *)
Lemma url_to_image_undecodable_returns_None :
  prim_failure undecodable_handler
    (url_to_image cv_globals (PyStr "http://host/a.txt") false) = None
  /\ run undecodable_handler
       (url_to_image cv_globals (PyStr "http://host/a.txt") false)
     = Ok PyNone.
Proof. split; reflexivity. Qed.

(** * Further properties of the module *)

(** ** [edges] *)

(** X1: in manual mode, with an image and two integer thresholds, [edges]
    is the single call of the Canny primitive with the caller's
    thresholds: the median is not taken and sigma is not read. *)
Theorem edges_manual_is_canny :
  forall (img t1 t2 : pyval) (sigma : option float),
    is_None img = false ->
    isinstance_int t1 = true ->
    isinstance_int t2 = true ->
    edges img t1 t2 (PyBool false) sigma = call (cv_Canny img t1 t2)
    /\ forall h : handler,
         run h (edges img t1 t2 (PyBool false) sigma)
         = h _ (cv_Canny img t1 t2).
Proof.
  intros img t1 t2 sigma Himg H1 H2.
  assert (E : edges img t1 t2 (PyBool false) sigma = call (cv_Canny img t1 t2)).
  { unfold edges. rewrite H1, H2, Himg.
    rewrite (isinstance_int_not_None _ H1), (isinstance_int_not_None _ H2).
    reflexivity. }
  split; [exact E|]. intros h. rewrite E. unfold call. cbn [run].
  destruct (h _ (cv_Canny img t1 t2)); reflexivity.
Qed.

Lemma edges_manual_is_canny_witness :
  edges (PyArr gray22) (PyBool true) (PyInt 150) (PyBool false) (Some 2%float)
  = call (cv_Canny (PyArr gray22) (PyBool true) (PyInt 150)).
Proof.
  apply (proj1 (edges_manual_is_canny (PyArr gray22) (PyBool true) (PyInt 150)
                  (Some 2%float) eq_refl eq_refl eq_refl)).
Defined.

(** X2: the checks of [edges] are ranked: a flag that is not a [bool] is
    reported whatever the other arguments are; then a threshold that is
    not an integer, even on a [None] image; then the [None] image; and
    arguments that pass these three checks always reach a primitive. *)
Theorem edges_validation_order :
  forall (img t1 t2 use_median : pyval) (sigma : option float),
    (isinstance_bool use_median = false ->
     edges img t1 t2 use_median sigma
     = Raise (ValueError "use_median must be a boolean"))
    /\ (isinstance_bool use_median = true ->
        isinstance_int t1 && isinstance_int t2 = false ->
        edges img t1 t2 use_median sigma
        = Raise (ValueError "Threshold values must be integers"))
    /\ (isinstance_bool use_median = true ->
        isinstance_int t1 && isinstance_int t2 = true ->
        is_None img = true ->
        edges img t1 t2 use_median sigma
        = Raise (ValueError "Image is of NoneType()"))
    /\ (isinstance_bool use_median = true ->
        isinstance_int t1 && isinstance_int t2 = true ->
        is_None img = false ->
        exists (X : Type) (p : prim X) (k : X -> py ndarray),
          edges img t1 t2 use_median sigma = Call p k).
Proof.
  intros img t1 t2 um sigma. unfold edges. split; [|split; [|split]].
  - intros ->. reflexivity.
  - intros -> H. cbn [negb]. apply andb_false_iff in H.
    destruct H as [-> | ->]; [reflexivity|].
    rewrite orb_true_r. reflexivity.
  - intros -> H ->. apply andb_true_iff in H. destruct H as [-> ->].
    reflexivity.
  - intros -> H ->. apply andb_true_iff in H. destruct H as [H1 H2].
    rewrite H1, H2.
    rewrite (isinstance_int_not_None _ H1), (isinstance_int_not_None _ H2).
    cbn [negb orb]. rewrite andb_false_r.
    destruct (truth um); unfold call; cbn [bind]; eauto.
Qed.

Lemma edges_validation_order_witness :
  edges PyNone (PyStr "50") (PyInt 150) (PyBool false) None
  = Raise (ValueError "Threshold values must be integers").
Proof.
  apply (proj1 (proj2 (edges_validation_order PyNone (PyStr "50") (PyInt 150)
                         (PyBool false) None)) eq_refl eq_refl).
Defined.

(** X3: whenever a call of [edges] in automatic mode returns, what it
    returns is the answer of the Canny primitive to a low threshold that
    is not negative and a high threshold that is at most 255. *)
Theorem edges_auto_thresholds_in_range :
  forall (h : handler) (img t1 t2 : pyval) (sigma : option float)
         (out : ndarray),
    is_None img = false ->
    isinstance_int t1 = true ->
    isinstance_int t2 = true ->
    run h (edges img t1 t2 (PyBool true) sigma) = Ok out ->
    exists low high : Z,
      (0 <= low)%Z /\ (high <= 255)%Z
      /\ h _ (cv_Canny img (PyInt low) (PyInt high)) = Ok out.
Proof.
  intros h img t1 t2 sigma out Himg H1 H2.
  rewrite (edges_auto_unfold img t1 t2 sigma Himg H1 H2). cbn [bind call run].
  destruct (h _ (median img)) as [med|e]; [|discriminate].
  rewrite py_int_max_zero, py_int_min_255.
  fold (auto_low sigma med). fold (auto_high sigma med).
  destruct (auto_low sigma med) as [low|e] eqn:Hlow; cbn [lift bind run];
    [|discriminate].
  destruct (auto_high sigma med) as [high|e] eqn:Hhigh; cbn [lift bind run];
    [|discriminate].
  intros Hrun. exists low, high.
  split; [exact (auto_low_nonneg _ _ _ Hlow)|].
  split; [exact (auto_high_le_255 _ _ _ Hhigh)|].
  unfold call in Hrun. cbn [run] in Hrun.
  destruct (h _ (cv_Canny img (PyInt low) (PyInt high))); [exact Hrun|].
  discriminate.
Qed.

Lemma edges_auto_thresholds_in_range_witness :
  exists low high : Z,
    (0 <= low)%Z /\ (high <= 255)%Z
    /\ sample_handler _ (cv_Canny (PyArr gray22) (PyInt low) (PyInt high))
       = Ok gray22.
Proof.
  apply (edges_auto_thresholds_in_range sample_handler (PyArr gray22)
           (PyInt 0) (PyInt 0) None gray22 eq_refl eq_refl eq_refl).
  vm_compute. reflexivity.
Defined.

(** X4: in automatic mode, when the low product (1 - sigma) * median is
    plus infinity, [int()] refuses it: the call ends in [OverflowError]
    and the Canny primitive is not reached. *)
Theorem edges_auto_infinite_low_overflows :
  forall (h : handler) (img t1 t2 : pyval) (sigma : option float)
         (med : float),
    is_None img = false ->
    isinstance_int t1 = true ->
    isinstance_int t2 = true ->
    h _ (median img) = Ok med ->
    Prim2SF ((1.0 - sigma_or_default sigma) * med)%float
    = S754_infinity false ->
    run h (edges img t1 t2 (PyBool true) sigma)
    = Err (OverflowError "cannot convert float infinity to integer").
Proof.
  intros h img t1 t2 sigma med Himg H1 H2 Hmed Hinf.
  rewrite (edges_auto_unfold img t1 t2 sigma Himg H1 H2). cbn [bind call run].
  rewrite Hmed, py_int_max_zero.
  unfold int_lt_float, py_int. rewrite Hinf. reflexivity.
Qed.

Lemma edges_auto_infinite_low_overflows_witness :
  run sample_handler
    (edges (PyArr gray22) (PyInt 0) (PyInt 0) (PyBool true)
       (Some neg_infinity))
  = Err (OverflowError "cannot convert float infinity to integer").
Proof.
  apply (edges_auto_infinite_low_overflows sample_handler (PyArr gray22)
           (PyInt 0) (PyInt 0) (Some neg_infinity) 100%float
           eq_refl eq_refl eq_refl eq_refl eq_refl).
Defined.

(** X5: in automatic mode, when both products are NaN (a NaN sigma or a
    NaN median), neither comparison of [max] and [min] holds and the
    Canny primitive is called with the thresholds 0 and 255. *)
Theorem edges_auto_nan_full_range :
  forall (h : handler) (img t1 t2 : pyval) (sigma : option float)
         (med : float),
    is_None img = false ->
    isinstance_int t1 = true ->
    isinstance_int t2 = true ->
    h _ (median img) = Ok med ->
    Prim2SF ((1.0 - sigma_or_default sigma) * med)%float = S754_nan ->
    Prim2SF ((1.0 + sigma_or_default sigma) * med)%float = S754_nan ->
    run h (edges img t1 t2 (PyBool true) sigma)
    = h _ (cv_Canny img (PyInt 0) (PyInt 255)).
Proof.
  intros h img t1 t2 sigma med Himg H1 H2 Hmed Hlo Hhi.
  rewrite (edges_auto_unfold img t1 t2 sigma Himg H1 H2). cbn [bind call run].
  rewrite Hmed, py_int_max_zero, py_int_min_255.
  unfold int_lt_float, float_lt_int. rewrite Hlo, Hhi. cbn [lift bind].
  unfold call. cbn [run].
  destruct (h _ (cv_Canny img (PyInt 0) (PyInt 255))); reflexivity.
Qed.

Lemma edges_auto_nan_full_range_witness :
  run (median_handler nan)
    (edges (PyArr gray22) (PyInt 0) (PyInt 0) (PyBool true) None)
  = median_handler nan _ (cv_Canny (PyArr gray22) (PyInt 0) (PyInt 255)).
Proof.
  apply (edges_auto_nan_full_range (median_handler nan) (PyArr gray22)
           (PyInt 0) (PyInt 0) None nan
           eq_refl eq_refl eq_refl eq_refl eq_refl eq_refl).
Defined.

(** ** The transforms *)

(** X6: without a rotation point, [rotate] asks for the rotation about
    [(width // 2, height // 2)] at scale 1.0, by the angle it was given,
    and warps onto a canvas of the width and height of the image; under
    the contract of the warp the result has the height and width of the
    image. *)
Theorem rotate_about_centre_keeps_canvas :
  forall (h : handler) (a : ndarray) (angle : pyval),
    is_image a = true ->
    rotate (PyArr a) angle PyNone
    = (rotMat <- call (cv_getRotationMatrix2D
                         (nth 1 (shape a) 0 / 2, nth 0 (shape a) 0 / 2)%nat
                         angle 1.0%float) ;;
       call (cv_warpAffine (PyArr a) rotMat
               (nth 1 (shape a) 0%nat, nth 0 (shape a) 0%nat)))
    /\ (warp_canvas h ->
        forall out : ndarray,
          run h (rotate (PyArr a) angle PyNone) = Ok out ->
          firstn 2 (shape out) = firstn 2 (shape a)).
Proof.
  intros h a angle Hi.
  destruct (image_shape a Hi) as (hh & w & rest & Hs).
  rewrite (rotate_default_centre a angle hh w rest Hs), Hs.
  split; [reflexivity|].
  intros Hcv out. cbn [bind call run nth firstn].
  destruct (h _ (cv_getRotationMatrix2D _ angle _)) as [M|e]; [|discriminate].
  destruct (h _ (cv_warpAffine (PyArr a) M (w, hh))) as [b|e] eqn:Hw;
    [|discriminate].
  intros Hout. injection Hout as <-. exact (Hcv _ _ _ _ _ Hw).
Qed.

Lemma rotate_about_centre_keeps_canvas_witness :
  run sample_handler (rotate (PyArr gray22) (PyInt 90) PyNone) = Ok gray22
  /\ firstn 2 (shape gray22) = [2; 2]%nat.
Proof.
  split; [reflexivity|].
  apply (proj2 (rotate_about_centre_keeps_canvas sample_handler gray22
                  (PyInt 90) eq_refl) sample_warp_canvas gray22 eq_refl).
Defined.

(** X7: an array with fewer than two dimensions is refused by both
    transforms before any primitive is called: by [translate], once its
    offsets have been accepted by [np.float32], with the [IndexError] of
    [shape[1]]; by [rotate] with the [ValueError] of unpacking
    [shape[:2]], whatever the rotation point. *)
Theorem transforms_reject_flat_arrays :
  forall (a : ndarray) (x y : num) (angle rotPoint : pyval),
    (ndim a < 2)%nat ->
    (float_able x = true ->
     float_able y = true ->
     translate (PyArr a) x y = Raise (IndexError "tuple index out of range"))
    /\ rotate (PyArr a) angle rotPoint
       = Raise (ValueError ("not enough values to unpack (expected 2, got "
                            ++ str_of_nat (ndim a) ++ ")")).
Proof.
  intros a x y angle rp Hn. split.
  - intros Hx Hy. unfold translate, get_shape.
    rewrite np_float32_translation, Hx, Hy. cbn [andb lift bind].
    unfold ndim in Hn.
    destruct (shape a) as [|d [|d' rest]]; cbn [List.length] in Hn.
    + reflexivity.
    + reflexivity.
    + lia.
  - unfold ndim in *. unfold rotate, get_shape.
    destruct (shape a) as [|d [|d' rest]]; cbn [List.length] in *.
    + reflexivity.
    + reflexivity.
    + lia.
Qed.

Lemma transforms_reject_flat_arrays_witness :
  translate (PyArr (mk_ndarray [4]%nat [1; 2; 3; 4]%Z)) (NInt 1) (NInt 1)
  = Raise (IndexError "tuple index out of range")
  /\ rotate (PyArr (mk_ndarray [4]%nat [1; 2; 3; 4]%Z)) (PyInt 90)
       (PyTuple [PyInt 0; PyInt 0])
     = Raise (ValueError "not enough values to unpack (expected 2, got 1)").
Proof.
  assert (Hn : (ndim (mk_ndarray [4]%nat [1; 2; 3; 4]%Z) < 2)%nat)
    by (vm_compute; lia).
  pose proof (transforms_reject_flat_arrays
                (mk_ndarray [4]%nat [1; 2; 3; 4]%Z) (NInt 1) (NInt 1)
                (PyInt 90) (PyTuple [PyInt 0; PyInt 0]) Hn) as [Ht Hr].
  split; [exact (Ht eq_refl eq_refl) | exact Hr].
Defined.

(** X21: [translate] looks at its offsets before it looks at its image:
    an integer offset that no float can hold ends the call in the
    [OverflowError] of [np.float32] whatever the image argument is (an
    image, a flat array, [None]); with offsets that fit, a value that is
    not an array ends it in the [AttributeError] of [.shape]. *)
Theorem translate_checks_offsets_first :
  forall (image : pyval) (x y : num),
    (float_able x && float_able y = false ->
     translate image x y
     = Raise (OverflowError "int too large to convert to float"))
    /\ (float_able x = true ->
        float_able y = true ->
        (forall a : ndarray, image <> PyArr a) ->
        translate image x y
        = Raise (AttributeError
                   ("'" ++ type_name image
                    ++ "' object has no attribute 'shape'"))).
Proof.
  intros image x y. split.
  - apply translate_overflow.
  - intros Hx Hy Himg. unfold translate, get_shape.
    rewrite np_float32_translation, Hx, Hy. cbn [andb lift bind].
    destruct image; try reflexivity. contradiction (Himg a). reflexivity.
Qed.

Lemma translate_checks_offsets_first_witness :
  translate PyNone (NInt 0) (NInt (- 2 ^ 1024))
  = Raise (OverflowError "int too large to convert to float").
Proof.
  apply (proj1 (translate_checks_offsets_first PyNone (NInt 0)
                  (NInt (- 2 ^ 1024)))).
  vm_compute. reflexivity.
Defined.

(** ** The conversions *)

Lemma conversions_are_convert (G : globals) (purpose : string) (code : Z)
    (f : pyval -> py ndarray) :
  In (purpose, code, f) (conversions G) -> f = convert purpose code.
Proof.
  unfold conversions. cbn [In].
  intros H. repeat (destruct H as [H|H]; [injection H as <- <- <-; reflexivity|]).
  contradiction.
Qed.

(** X8: the validation of the eight conversions looks at the number of
    dimensions only: on every 3-dimensional array, whatever its channel
    count, a conversion is the single [cv.cvtColor] call with its own
    code; on every array of another dimension count it raises its shape
    error, which names the count found, and calls nothing. *)
Theorem conversions_check_dimensions_only :
  forall (G : globals) (purpose : string) (code : Z)
         (f : pyval -> py ndarray) (a : ndarray),
    In (purpose, code, f) (conversions G) ->
    (ndim a = 3%nat -> f (PyArr a) = call (cv_cvtColor (PyArr a) code))
    /\ (ndim a <> 3%nat ->
        f (PyArr a) = Raise (shape_error (ndim a) purpose)).
Proof.
  intros G purpose code f a Hin.
  rewrite (conversions_are_convert G purpose code f Hin). split.
  - apply convert_3d.
  - apply convert_not_3d.
Qed.

Lemma conversions_check_dimensions_only_witness :
  bgr_to_hsv cv_globals (PyArr (mk_ndarray [1; 1; 1; 3]%nat [1; 2; 3]%Z))
  = Raise (ValueError "Image of shape 3 expected. Found shape 4. This method converts a BGR image to its HSV counterpart").
Proof.
  apply (proj2 (conversions_check_dimensions_only cv_globals
                  "a BGR image to its HSV counterpart" 40%Z
                  (bgr_to_hsv cv_globals)
                  (mk_ndarray [1; 1; 1; 3]%nat [1; 2; 3]%Z)
                  (or_intror (or_intror (or_intror (or_intror
                     (or_introl eq_refl))))))).
  vm_compute. discriminate.
Defined.

(** X9: handed anything that is not an array ([None] included), each of
    the eight conversions fails on reading [img.shape], with an
    [AttributeError] that names the type of the value, before its own
    validation. *)
Theorem conversions_need_array :
  forall (G : globals) (purpose : string) (code : Z)
         (f : pyval -> py ndarray) (v : pyval),
    In (purpose, code, f) (conversions G) ->
    (forall a : ndarray, v <> PyArr a) ->
    f v = Raise (AttributeError
                   ("'" ++ type_name v ++ "' object has no attribute 'shape'")).
Proof.
  intros G purpose code f v Hin Hv.
  rewrite (conversions_are_convert G purpose code f Hin).
  unfold convert, get_shape.
  destruct v; try reflexivity. contradiction (Hv a). reflexivity.
Qed.

Lemma conversions_need_array_witness :
  rgb_to_gray cv_globals PyNone
  = Raise (AttributeError "'NoneType' object has no attribute 'shape'").
Proof.
  apply (conversions_need_array cv_globals
           "an RGB image to its Grayscale counterpart" 7%Z
           (rgb_to_gray cv_globals) PyNone
           (or_intror (or_intror (or_intror (or_introl eq_refl))))).
  intros a. discriminate.
Defined.

(** ** [mean], [split] and [merge] *)

(** X10: [mean] hands on the sequence that [cv.mean] returns, unchanged;
    when [cv.mean] fails, whatever the failure, [mean] fails with
    [ValueError('mean() expects an image')]: no other error ever leaves
    it. *)
Theorem mean_only_raises_its_own_error :
  forall (h : handler) (image mask : pyval),
    (forall s : list float,
        h _ (cv_mean image mask) = Ok s -> run h (mean image mask) = Ok s)
    /\ (forall e : exn,
           h _ (cv_mean image mask) = Err e ->
           run h (mean image mask) = Err (ValueError "mean() expects an image"))
    /\ (forall e : exn,
           run h (mean image mask) = Err e ->
           e = ValueError "mean() expects an image").
Proof.
  intros h image mask. rewrite mean_passthrough.
  split; [|split].
  - intros s ->. reflexivity.
  - intros e ->. reflexivity.
  - intros e. destruct (h _ (cv_mean image mask)); [discriminate|].
    intros He. injection He as <-. reflexivity.
Qed.

Lemma mean_only_raises_its_own_error_witness :
  run (fail_handler (LibError "cv2" "sizes of input arguments do not match"))
    (mean (PyArr bgr12) (PyArr gray22))
  = Err (ValueError "mean() expects an image").
Proof.
  apply (proj1 (proj2 (mean_only_raises_its_own_error
                         (fail_handler
                            (LibError "cv2"
                               "sizes of input arguments do not match"))
                         (PyArr bgr12) (PyArr gray22)))
           (LibError "cv2" "sizes of input arguments do not match") eq_refl).
Defined.

(** X11: [split] hands on the channels that [cv.split] returns; when
    [cv.split] fails, whatever the failure, [split] fails with a
    [ValueError] whose message is that of [mean]:
    'mean() expects an image'. *)
Theorem split_raises_the_error_of_mean :
  forall (hx : xhandler) (img : pyval),
    (forall chs : list ndarray,
        hx _ (cv_split img) = Ok chs -> xrun hx (split img) = Ok chs)
    /\ (forall e : exn,
           hx _ (cv_split img) = Err e ->
           xrun hx (split img) = Err (ValueError "mean() expects an image"))
    /\ (forall e : exn,
           xrun hx (split img) = Err e ->
           e = ValueError "mean() expects an image").
Proof.
  intros hx img. unfold split. cbn [xrun].
  split; [|split].
  - intros chs ->. reflexivity.
  - intros e ->. reflexivity.
  - intros e. destruct (hx _ (cv_split img)); [discriminate|].
    cbn [xrun]. intros He. injection He as <-. reflexivity.
Qed.

Lemma split_raises_the_error_of_mean_witness :
  xrun sample_xhandler (split PyNone)
  = Err (ValueError "mean() expects an image").
Proof.
  apply (proj1 (proj2 (split_raises_the_error_of_mean sample_xhandler PyNone))
           (LibError "cv2" "m is not a numpy array") eq_refl).
Defined.

(** X12: in [merge(split(img))] the two halves treat failures
    differently: a failure of [cv.split] is replaced by the [ValueError]
    of [split] and [cv.merge] is not called; a failure of [cv.merge]
    reaches the caller as it is; on success the result is what [cv.merge]
    makes of the channels of [cv.split]. *)
Theorem merge_split_failures :
  forall (hx : xhandler) (img : pyval),
    (forall e : exn,
        hx _ (cv_split img) = Err e ->
        xrun hx (merge_split img) = Err (ValueError "mean() expects an image"))
    /\ (forall chs : list ndarray,
           hx _ (cv_split img) = Ok chs ->
           xrun hx (merge_split img)
           = hx _ (cv_merge (PyTuple (map PyArr chs)))).
Proof.
  intros hx img. unfold merge_split, split, merge, xcall. cbn [xbind xrun].
  split.
  - intros e ->. reflexivity.
  - intros chs ->.
    destruct (hx _ (cv_merge (PyTuple (map PyArr chs)))); reflexivity.
Qed.

Lemma merge_split_failures_witness :
  xrun sample_xhandler (merge_split (PyArr bgr12))
  = Ok (mk_ndarray [1; 2; 3]%nat [1; 2; 3; 4; 5; 6]%Z).
Proof.
  rewrite (proj2 (merge_split_failures sample_xhandler (PyArr bgr12))
             (repeat (mk_ndarray [1; 2]%nat [1; 2; 3; 4; 5; 6]%Z) 3) eq_refl).
  reflexivity.
Defined.

(** ** [url_to_image] *)

(** X13: when the decoder hands out [None] instead of an image,
    [url_to_image] returns that [None] to a caller who did not ask for
    RGB, and fails with the [AttributeError] of [None.shape] for a caller
    who did. *)
Theorem url_to_image_decoder_None :
  forall (G : globals) (h : handler) (url : pyval) (r : response)
         (raw : list Z) (buf : ndarray),
    h _ (urlopen url) = Ok r ->
    h _ (response_read r) = Ok raw ->
    h _ (asarray raw "uint8") = Ok buf ->
    h _ (cv_imdecode buf (IMREAD_COLOR G)) = Ok PyNone ->
    run h (url_to_image G url false) = Ok PyNone
    /\ run h (url_to_image G url true)
       = Err (AttributeError "'NoneType' object has no attribute 'shape'").
Proof.
  intros G h url r raw buf Hr Hraw Hbuf Hv. split.
  - rewrite (url_to_image_after_decode G h url false r raw buf PyNone
               Hr Hraw Hbuf Hv). reflexivity.
  - rewrite (url_to_image_after_decode G h url true r raw buf PyNone
               Hr Hraw Hbuf Hv). reflexivity.
Qed.

Lemma url_to_image_decoder_None_witness :
  run undecodable_handler
    (url_to_image cv_globals (PyStr "http://host/a.txt") false) = Ok PyNone
  /\ run undecodable_handler
       (url_to_image cv_globals (PyStr "http://host/a.txt") true)
     = Err (AttributeError "'NoneType' object has no attribute 'shape'").
Proof.
  apply (url_to_image_decoder_None cv_globals undecodable_handler
           (PyStr "http://host/a.txt") (Response 0) [66; 71; 82]%Z
           (mk_ndarray [3]%nat [66; 71; 82]%Z)
           eq_refl eq_refl eq_refl eq_refl).
Defined.

(** X14: when the decoder hands out an array, [url_to_image] returns
    that very array without any conversion if RGB was not asked for;
    if it was, a 3-dimensional array goes through one
    [cv.cvtColor(_, BGR2RGB)] call, and an array of another dimension
    count ends in the shape error of [bgr_to_rgb]. *)
Theorem url_to_image_decoded :
  forall (G : globals) (h : handler) (url : pyval) (r : response)
         (raw : list Z) (buf a : ndarray),
    h _ (urlopen url) = Ok r ->
    h _ (response_read r) = Ok raw ->
    h _ (asarray raw "uint8") = Ok buf ->
    h _ (cv_imdecode buf (IMREAD_COLOR G)) = Ok (PyArr a) ->
    run h (url_to_image G url false) = Ok (PyArr a)
    /\ (ndim a = 3%nat ->
        run h (url_to_image G url true)
        = match h _ (cv_cvtColor (PyArr a) (BGR2RGB G)) with
          | Ok b => Ok (PyArr b)
          | Err e => Err e
          end)
    /\ (ndim a <> 3%nat ->
        run h (url_to_image G url true)
        = Err (shape_error (ndim a) "a BGR image to its RGB counterpart")).
Proof.
  intros G h url r raw buf a Hr Hraw Hbuf Hv. split; [|split].
  - rewrite (url_to_image_after_decode G h url false r raw buf (PyArr a)
               Hr Hraw Hbuf Hv). reflexivity.
  - intros Ha.
    rewrite (url_to_image_after_decode G h url true r raw buf (PyArr a)
               Hr Hraw Hbuf Hv).
    unfold bgr_to_rgb. rewrite (convert_3d _ _ a Ha). cbn [bind call run].
    destruct (h _ (cv_cvtColor (PyArr a) (BGR2RGB G))); reflexivity.
  - intros Ha.
    rewrite (url_to_image_after_decode G h url true r raw buf (PyArr a)
               Hr Hraw Hbuf Hv).
    unfold bgr_to_rgb. rewrite (convert_not_3d _ _ a Ha). reflexivity.
Qed.

Lemma url_to_image_decoded_witness :
  run sample_handler (url_to_image cv_globals (PyStr "http://host/a.png") false)
  = Ok (PyArr (mk_ndarray [1; 1; 3]%nat [66; 71; 82]%Z)).
Proof.
  apply (proj1 (url_to_image_decoded cv_globals sample_handler
                  (PyStr "http://host/a.png") (Response 0) [66; 71; 82]%Z
                  (mk_ndarray [3]%nat [66; 71; 82]%Z)
                  (mk_ndarray [1; 1; 3]%nat [66; 71; 82]%Z)
                  eq_refl eq_refl eq_refl eq_refl)).
Defined.

(** ** The visualization helpers *)

Lemma xrun_widen {A : Type} (hx : xhandler) (m : py A) :
  xrun hx (widen m) = run (narrow hx) m.
Proof.
  induction m as [a|e|X p k IH|X p ex IHex k IHk]; cbn [widen xrun run].
  - reflexivity.
  - reflexivity.
  - unfold narrow at 1. destruct (hx X (base p)); [apply IH | reflexivity].
  - unfold narrow at 1. destruct (hx X (base p)); [apply IHk | apply IHex].
Qed.

(** X15: [color_map] inherits the validation of [bgr_to_gray]: an array
    that is not 3-dimensional (a grayscale image, say) is refused with
    the shape error worded for the BGR-to-grayscale conversion, and a
    value that is not an array with the [AttributeError] of [.shape];
    in both cases no primitive is called. *)
Theorem color_map_rejects_non_3d :
  forall (G : globals) (v : pyval),
    (forall a : ndarray,
        v = PyArr a -> ndim a <> 3%nat ->
        color_map G v
        = XRaise (shape_error (ndim a)
                    "a BGR image to its Grayscale counterpart"))
    /\ ((forall a : ndarray, v <> PyArr a) ->
        color_map G v
        = XRaise (AttributeError
                    ("'" ++ type_name v
                     ++ "' object has no attribute 'shape'"))).
Proof.
  intros G v. unfold color_map, bgr_to_gray. split.
  - intros a -> Ha. rewrite (convert_not_3d _ _ a Ha). reflexivity.
  - intros Hv. unfold convert, get_shape.
    destruct v; try reflexivity. contradiction (Hv a). reflexivity.
Qed.

Lemma color_map_rejects_non_3d_witness :
  color_map cv_globals (PyArr gray22)
  = XRaise (ValueError "Image of shape 3 expected. Found shape 2. This method converts a BGR image to its Grayscale counterpart").
Proof.
  apply (proj1 (color_map_rejects_non_3d cv_globals (PyArr gray22))
           gray22 eq_refl).
  vm_compute. discriminate.
Defined.

(** X16: [color_map] blends the heat map with the image it was given,
    not with its grayscale version: on a 3-dimensional image, with [gray]
    the answer of the grayscale conversion and [heat] the answer of the
    colour-map lookup with index 11 on [gray], the result is the answer
    of [cv.addWeighted(heat, 0.7, img, 0.3, 0)]. *)
Theorem color_map_blends_with_input :
  forall (G : globals) (hx : xhandler) (a gray heat : ndarray),
    ndim a = 3%nat ->
    hx _ (base (cv_cvtColor (PyArr a) (BGR2GRAY G))) = Ok gray ->
    hx _ (cv_applyColorMap gray 11) = Ok heat ->
    xrun hx (color_map G (PyArr a))
    = hx _ (cv_addWeighted heat 0.7 (PyArr a) 0.3 0).
Proof.
  intros G hx a gray heat Ha Hg Hh. unfold color_map, bgr_to_gray.
  rewrite (convert_3d _ _ a Ha). cbn [call widen xbind xcall xrun].
  rewrite Hg, Hh.
  destruct (hx _ (cv_addWeighted heat 0.7 (PyArr a) 0.3 0)); reflexivity.
Qed.

Lemma color_map_blends_with_input_witness :
  xrun sample_xhandler (color_map cv_globals (PyArr bgr12))
  = sample_xhandler _
      (cv_addWeighted (blank [1; 2; 3; 3]%nat) 0.7 (PyArr bgr12) 0.3 0).
Proof.
  apply (color_map_blends_with_input cv_globals sample_xhandler bgr12 bgr12
           (blank [1; 2; 3; 3]%nat) eq_refl eq_refl eq_refl).
Defined.

(** X17: [energy_map] converts to grayscale after the cast to [uint8]:
    when the cast answers with an array that is not 3-dimensional, the
    call ends in the shape error of [bgr_to_gray] and no gradient is
    computed; a value that is not an array fails on [.astype] before any
    primitive is called. *)
Theorem energy_map_rejects_non_3d :
  forall (G : globals) (hx : xhandler) (v : pyval),
    (forall a b : ndarray,
        v = PyArr a ->
        hx _ (ndarray_astype a "uint8") = Ok b ->
        ndim b <> 3%nat ->
        xrun hx (energy_map G v)
        = Err (shape_error (ndim b)
                 "a BGR image to its Grayscale counterpart"))
    /\ ((forall a : ndarray, v <> PyArr a) ->
        energy_map G v
        = XRaise (AttributeError
                    ("'" ++ type_name v
                     ++ "' object has no attribute 'astype'"))).
Proof.
  intros G hx v. unfold energy_map. split.
  - intros a b -> Hb Hn. cbn [get_astype xbind xcall xrun]. rewrite Hb.
    unfold bgr_to_gray. rewrite (convert_not_3d _ _ b Hn). reflexivity.
  - intros Hv. unfold get_astype.
    destruct v; try reflexivity. contradiction (Hv a). reflexivity.
Qed.

Lemma energy_map_rejects_non_3d_witness :
  xrun sample_xhandler (energy_map cv_globals (PyArr gray22))
  = Err (ValueError "Image of shape 3 expected. Found shape 2. This method converts a BGR image to its Grayscale counterpart").
Proof.
  apply (proj1 (energy_map_rejects_non_3d cv_globals sample_xhandler
                  (PyArr gray22))
           gray22 (mk_ndarray [2; 2]%nat [90; 120; 80; 110]%Z)
           eq_refl eq_refl).
  vm_compute. discriminate.
Defined.

(** ** Failures of the primitives *)

Lemma uncaught_lift {A : Type} (r : result A) : uncaught (lift r).
Proof. destruct r; constructor. Qed.

Lemma uncaught_translate (image : pyval) (x y : num) :
  uncaught (translate image x y).
Proof.
  unfold translate. apply uncaught_bind; [apply uncaught_lift | intros M].
  apply uncaught_bind; [destruct image; constructor|].
  intros shp. apply uncaught_bind.
  { unfold shape_index. destruct (nth_error shp 1); constructor. }
  intros w. apply uncaught_bind.
  { unfold shape_index. destruct (nth_error shp 0); constructor. }
  intros hh. apply uncaught_call.
Qed.

Lemma uncaught_rotate (image angle rotPoint : pyval) :
  uncaught (rotate image angle rotPoint).
Proof.
  unfold rotate. apply uncaught_bind; [destruct image; constructor|].
  intros shp. destruct (firstn 2 shp) as [|hh [|w [|d rest]]];
    try constructor.
  destruct (is_None rotPoint); [|constructor].
  apply uncaught_bind; [apply uncaught_call | intros M; apply uncaught_call].
Qed.

Lemma uncaught_edges (img t1 t2 use_median : pyval) (sigma : option float) :
  uncaught (edges img t1 t2 use_median sigma).
Proof.
  unfold edges.
  destruct (negb (isinstance_bool use_median)); [constructor|].
  destruct (negb (isinstance_int t1) || negb (isinstance_int t2));
    [constructor|].
  destruct (is_None img); [constructor|].
  destruct (negb (truth use_median) && (is_None t1 || is_None t2));
    [constructor|].
  destruct (truth use_median); [|apply uncaught_call].
  apply uncaught_bind; [apply uncaught_call | intros med].
  apply uncaught_bind; [apply uncaught_lift | intros low].
  apply uncaught_bind; [apply uncaught_lift | intros up].
  apply uncaught_call.
Qed.

(** X18: the transforms, [edges] and the eight conversions catch
    nothing: in a call of any of them, the exception of the first
    primitive that fails is the outcome of the call, unchanged. *)
Theorem base_functions_propagate_failures :
  forall (h : handler) (e : exn),
    (forall (image : pyval) (x y : num),
        prim_failure h (translate image x y) = Some e ->
        run h (translate image x y) = Err e)
    /\ (forall image angle rotPoint : pyval,
           prim_failure h (rotate image angle rotPoint) = Some e ->
           run h (rotate image angle rotPoint) = Err e)
    /\ (forall (img t1 t2 use_median : pyval) (sigma : option float),
           prim_failure h (edges img t1 t2 use_median sigma) = Some e ->
           run h (edges img t1 t2 use_median sigma) = Err e)
    /\ (forall (G : globals) (purpose : string) (code : Z)
               (f : pyval -> py ndarray) (v : pyval),
           In (purpose, code, f) (conversions G) ->
           prim_failure h (f v) = Some e ->
           run h (f v) = Err e).
Proof.
  intros h e. split; [|split; [|split]].
  - intros image x y. apply uncaught_propagates, uncaught_translate.
  - intros image angle rp. apply uncaught_propagates, uncaught_rotate.
  - intros img t1 t2 um sigma. apply uncaught_propagates, uncaught_edges.
  - intros G purpose code f v Hin.
    rewrite (conversions_are_convert G purpose code f Hin).
    apply uncaught_propagates, uncaught_convert.
Qed.

Lemma base_functions_propagate_failures_witness :
  run (fail_handler (LibError "cv2" "out of memory"))
    (translate (PyArr gray22) (NInt 1) (NInt 0))
  = Err (LibError "cv2" "out of memory").
Proof.
  apply (proj1 (base_functions_propagate_failures
                  (fail_handler (LibError "cv2" "out of memory"))
                  (LibError "cv2" "out of memory"))
           (PyArr gray22) (NInt 1) (NInt 0) eq_refl).
Defined.

Lemma xuncaught_bind {A B : Type} (m : xpy A) (f : A -> xpy B) :
  xuncaught m -> (forall a : A, xuncaught (f a)) -> xuncaught (xbind m f).
Proof.
  intros Hm Hf. induction Hm as [a|e|X p k _ IH]; cbn [xbind].
  - apply Hf.
  - constructor.
  - constructor. exact IH.
Qed.

Lemma xuncaught_xcall {X : Type} (p : xprim X) : xuncaught (xcall p).
Proof. unfold xcall. constructor. intros x. constructor. Qed.

Lemma xuncaught_widen {A : Type} (m : py A) :
  uncaught m -> xuncaught (widen m).
Proof.
  intros Hm. induction Hm as [a|e|X p k _ IH]; cbn [widen]; constructor.
  exact IH.
Qed.

Lemma xuncaught_propagates {A : Type} (hx : xhandler) (m : xpy A) (e : exn) :
  xuncaught m -> xprim_failure hx m = Some e -> xrun hx m = Err e.
Proof.
  intros Hm. induction Hm as [a|e'|X p k _ IH]; cbn [xprim_failure xrun].
  - discriminate.
  - discriminate.
  - destruct (hx X p) as [x|e'].
    + apply IH.
    + intros He. injection He as ->. reflexivity.
Qed.

Lemma xuncaught_energy_map (G : globals) (img : pyval) :
  xuncaught (energy_map G img).
Proof.
  unfold energy_map.
  apply xuncaught_bind; [destruct img; constructor | intros a].
  apply xuncaught_bind; [apply xuncaught_xcall | intros img8].
  apply xuncaught_bind;
    [apply xuncaught_widen, uncaught_convert | intros gray].
  repeat (apply xuncaught_bind; [apply xuncaught_xcall | intros ?]).
  apply xuncaught_xcall.
Qed.

Lemma xuncaught_color_map (G : globals) (img : pyval) :
  xuncaught (color_map G img).
Proof.
  unfold color_map.
  apply xuncaught_bind;
    [apply xuncaught_widen, uncaught_convert | intros gray].
  apply xuncaught_bind; [apply xuncaught_xcall | intros heat].
  apply xuncaught_xcall.
Qed.

(** X19: [merge], [energy_map] and [color_map] catch nothing either: the
    exception of the first primitive that fails (the cast, the grayscale
    conversion, a gradient, the colour-map lookup, the blend, the merge)
    is the outcome of the call, unchanged. *)
Theorem helpers_propagate_failures :
  forall (hx : xhandler) (e : exn),
    (forall img : pyval,
        xprim_failure hx (merge img) = Some e -> xrun hx (merge img) = Err e)
    /\ (forall (G : globals) (img : pyval),
           xprim_failure hx (energy_map G img) = Some e ->
           xrun hx (energy_map G img) = Err e)
    /\ (forall (G : globals) (img : pyval),
           xprim_failure hx (color_map G img) = Some e ->
           xrun hx (color_map G img) = Err e).
Proof.
  intros hx e. split; [|split].
  - intros img. apply xuncaught_propagates. unfold merge.
    apply xuncaught_xcall.
  - intros G img. apply xuncaught_propagates, xuncaught_energy_map.
  - intros G img. apply xuncaught_propagates, xuncaught_color_map.
Qed.

Lemma helpers_propagate_failures_witness :
  xrun (fail_xhandler (LibError "cv2" "out of memory"))
    (energy_map cv_globals (PyArr bgr12))
  = Err (LibError "cv2" "out of memory").
Proof.
  apply (proj1 (proj2 (helpers_propagate_failures
                         (fail_xhandler (LibError "cv2" "out of memory"))
                         (LibError "cv2" "out of memory")))
           cv_globals (PyArr bgr12) eq_refl).
Defined.

(** ** Composition of the conversions *)

(** X20: in [rgb_to_bgr(bgr_to_rgb(img))] on a 3-dimensional image, the
    second wrapper validates what [cv.cvtColor] made of the image: if the
    intermediate result is 3-dimensional the round trip is the second
    [cv.cvtColor] call on it, with the code [RGB2BGR]; if it is not, the
    round trip ends in the shape error of [rgb_to_bgr]; and a failure of
    the first call is the outcome. *)
Theorem bgr_rgb_roundtrip_composition :
  forall (G : globals) (h : handler) (a : ndarray),
    ndim a = 3%nat ->
    (forall e : exn,
        h _ (cv_cvtColor (PyArr a) (BGR2RGB G)) = Err e ->
        run h (rgb <- bgr_to_rgb G (PyArr a) ;; rgb_to_bgr G (PyArr rgb))
        = Err e)
    /\ (forall mid : ndarray,
           h _ (cv_cvtColor (PyArr a) (BGR2RGB G)) = Ok mid ->
           run h (rgb <- bgr_to_rgb G (PyArr a) ;; rgb_to_bgr G (PyArr rgb))
           = if (ndim mid =? 3)%nat
             then h _ (cv_cvtColor (PyArr mid) (RGB2BGR G))
             else Err (shape_error (ndim mid)
                         "an RGB image to its BGR counterpart")).
Proof.
  intros G h a Ha. unfold bgr_to_rgb, rgb_to_bgr.
  rewrite (convert_3d _ _ a Ha). unfold call. cbn [bind run]. split.
  - intros e ->. reflexivity.
  - intros mid ->. destruct (ndim mid =? 3)%nat eqn:Hm.
    + apply Nat.eqb_eq in Hm. rewrite (convert_3d _ _ mid Hm).
      unfold call. cbn [run].
      destruct (h _ (cv_cvtColor (PyArr mid) (RGB2BGR G))); reflexivity.
    + apply Nat.eqb_neq in Hm. rewrite (convert_not_3d _ _ mid Hm).
      reflexivity.
Qed.

Lemma bgr_rgb_roundtrip_composition_witness :
  run sample_handler
    (rgb <- bgr_to_rgb cv_globals (PyArr bgr12) ;;
     rgb_to_bgr cv_globals (PyArr rgb))
  = Ok bgr12.
Proof.
  rewrite (proj2 (bgr_rgb_roundtrip_composition cv_globals sample_handler
                    bgr12 eq_refl) bgr12 eq_refl).
  reflexivity.
Defined.

Example get_opencv_version_first_character :
  get_opencv_version "4.5.1" = Ok "4"
  /\ get_opencv_version "10.0.0" = Ok "1"
  /\ get_opencv_version "" = Err (IndexError "string index out of range").
Proof. repeat split. Qed.
